(** * GTAV-NativeDB: the code-generation page and the generator contract

    A shallow embedding of
    - [src/pages/GenerateCodePage/Language.tsx]: the option schema and
      the controls rendered from it, the [preview] computation, the
      settings [handleChange] handler, the [handleDownload] action and
      the render of the page;
    - [code-generation/ICodeGenerator.ts]: the type model and the
      generator interface;
    - [components/AppBar/Mobile.tsx]: the click handler of a menu entry
      and the entries of the menu;
    - [src/pages/NativesPage/NativeInfo.tsx]: the blocks of the page of
      one native.

    [NativeExporter] and the generator base class are imported by these
    files but are not among the sources at hand; they are modelled from the
    specification and marked as such. *)

From Stdlib Require Import ZArith Lia Bool.
From stdpp Require Import base option list strings gmap.

Local Open Scope string_scope.
Local Open Scope Z_scope.

(** ** JavaScript values and plain objects *)

Module Js.

(** The values a settings field or an event target can carry.  Numbers
    are only stored and compared by [typeof] here, never computed with.
    Nested objects and functions are opaque. *)
Inductive Value : Type :=
| Undefined
| Null
| Boolean (b : bool)
| Number (n : Z)
| String (s : string)
| Object
| Function.

(** The strings [typeof] can answer. *)
Inductive TypeTag : Type :=
| t_undefined | t_object | t_boolean | t_number | t_string | t_function.

Definition typeof (v : Value) : TypeTag :=
  match v with
  | Undefined => t_undefined
  | Null => t_object
  | Boolean _ => t_boolean
  | Number _ => t_number
  | String _ => t_string
  | Object => t_object
  | Function => t_function
  end.

Definition is_boolean (t : TypeTag) : bool :=
  match t with t_boolean => true | _ => false end.

(** What every plain object inherits from [Object.prototype]. *)
Definition ObjectPrototype : list (string * Value) :=
  [ ("constructor", Function);
    ("__proto__", Object);
    ("hasOwnProperty", Function);
    ("isPrototypeOf", Function);
    ("propertyIsEnumerable", Function);
    ("toLocaleString", Function);
    ("toString", Function);
    ("valueOf", Function);
    ("__defineGetter__", Function);
    ("__defineSetter__", Function);
    ("__lookupGetter__", Function);
    ("__lookupSetter__", Function) ].

Fixpoint assoc (key : string) (l : list (string * Value)) : option Value :=
  match l with
  | [] => None
  | (k, v) :: rest => if String.eqb k key then Some v else assoc key rest
  end.

Definition inherited (key : string) : option Value :=
  assoc key ObjectPrototype.

(** A plain object (an object literal, the result of [JSON.parse] or of
    an object spread) is its own properties; its prototype is
    [Object.prototype]. *)
Abbreviation PlainObject := (gmap string Value).

(** [key in o]: own properties first, then the prototype chain. *)
Definition has (key : string) (o : PlainObject) : bool :=
  match o !! key with
  | Some _ => true
  | None => match inherited key with Some _ => true | None => false end
  end.

(** [o[key]]. *)
Definition get (o : PlainObject) (key : string) : Value :=
  match o !! key with
  | Some v => v
  | None => match inherited key with Some v => v | None => Undefined end
  end.

(** [{ ...o, [key]: v }]: a fresh plain object with the own properties
    of [o], and [key] set to [v]. *)
Definition spread_set (o : PlainObject) (key : string) (v : Value)
  : PlainObject :=
  <[key := v]> o.

(** [s.indexOf(needle)]: the position of the first occurrence of
    [needle] in [s], or [-1]. *)
Fixpoint indexOf (needle s : string) : Z :=
  if String.prefix needle s then 0
  else
    match s with
    | EmptyString => -1
    | String.String _ rest =>
        let i := indexOf needle rest in
        if i <? 0 then -1 else i + 1
    end.

Fixpoint drop_chars (n : nat) (s : string) : string :=
  match n, s with
  | O, _ => s
  | S _, EmptyString => EmptyString
  | S k, String.String _ rest => drop_chars k rest
  end.

(** [s.slice(start)]: a negative [start] counts from the end of [s]. *)
Definition slice (s : string) (start : Z) : string :=
  let len := Z.of_nat (String.length s) in
  let from := if start <? 0 then Z.max (len + start) 0 else Z.min start len in
  drop_chars (Z.to_nat from) s.

End Js.

(** ** The type model and the generator interface (ICodeGenerator.ts) *)

Module CodeGenType.
(** [pointers: number]: the declaration puts no bound on the number. *)
Record t : Type := mk
  { pointers : Z;
    baseType : string;
    isConst : bool }.
End CodeGenType.

Module CodeGenParam.
Record t : Type := mk
  { type : CodeGenType.t;
    name : string }.
End CodeGenParam.

Module CodeGenNative.
Record t : Type := mk
  { hash : string;
    jhash : option string;
    params : list CodeGenParam.t;
    returnType : CodeGenType.t;
    name : string;
    comment : string;
    build : option string;
    oldNames : option (list string) }.
End CodeGenNative.

Module CodeGeneratorFile.
Record t : Type := mk
  { name : string;
    extension : string;
    content : string;
    mimeType : string }.
End CodeGeneratorFile.

(** A method that throws yields [Throw]; one that returns yields [Return]. *)
Inductive Thrown : Type :=
| DataIntegrityError (hash : string)
| ContractViolation (method : string)
| GeneratorError (message : string).

Inductive Completion (A : Type) : Type :=
| Return (a : A)
| Throw (e : Thrown).
Arguments Return {A} a.
Arguments Throw {A} e.

Definition bind {A B : Type} (c : Completion A) (k : A -> Completion B)
  : Completion B :=
  match c with
  | Return a => k a
  | Throw e => Throw e
  end.

Notation "x <- c ;; k" := (bind c (fun x => k))
  (at level 100, c at next level, right associativity).




(** The interface over an instance state [G]: a method that mutates the
    instance takes the state and gives the new one.  [Native] is the
    catalog's record type, declared outside the files at hand. *)
Class ICodeGenerator (Native G : Type) : Type :=
  { start : G -> Completion G;
    end_ : G -> Completion G;
    nativeToCodeGenNative : G -> Native -> Completion CodeGenNative.t;
    addNative : CodeGenNative.t -> G -> Completion G;
    pushNamespace : string -> G -> Completion G;
    popNamespace : G -> Completion G;
    get : G -> Completion string;
    submitExtraFile : CodeGeneratorFile.t -> G -> G;
    getExtraFiles : G -> list CodeGeneratorFile.t;
    clearExtraFiles : G -> G }.

(** ** The exporter (code-generation/NativeExporter) *)

Module Namespace.
Record t : Type := mk
  { name : string;
    natives : list string }.
End Namespace.

(** The catalog handed to [exportNatives].  The namespace mapping is kept
    in its iteration order. *)
Module NativeData.
Record t (Native : Type) : Type := mk
  { natives : gmap string Native;
    namespaces : list (string * Namespace.t) }.
Arguments mk {Native} natives namespaces.
Arguments natives {Native} t.
Arguments namespaces {Native} t.
End NativeData.

Section NativeExporter.
Context {Native G : Type} {generator : ICodeGenerator Native G}.

(** Modelled from the spec: the inner loop of [exportNatives] (the class
    NativeExporter is not among the sources).  For each hash of a
    namespace, in listed order: look the raw record up in the catalog's
    natives (a missing hash fails the run as a data-integrity error),
    convert it with the backend's [nativeToCodeGenNative], hand the
    result to [addNative]. *)
Fixpoint exportHashes (natives : gmap string Native) (hashes : list string)
  (g : G) : Completion G :=
  match hashes with
  | [] => Return g
  | hash :: rest =>
      match natives !! hash with
      | None => Throw (DataIntegrityError hash)
      | Some raw =>
          native <- nativeToCodeGenNative g raw ;;
          g' <- addNative native g ;;
          exportHashes natives rest g'
      end
  end.

(** Modelled from the spec: the outer loop of [exportNatives].  For each
    namespace, in the mapping's iteration order: [pushNamespace(name)],
    the natives of the namespace, [popNamespace()]. *)
Fixpoint exportNamespaces (natives : gmap string Native)
  (namespaces : list (string * Namespace.t)) (g : G) : Completion G :=
  match namespaces with
  | [] => Return g
  | (_, namespace) :: rest =>
      g1 <- pushNamespace (Namespace.name namespace) g ;;
      g2 <- exportHashes natives (Namespace.natives namespace) g1 ;;
      g3 <- popNamespace g2 ;;
      exportNamespaces natives rest g3
  end.

(** Modelled from the spec: [NativeExporter.exportNatives] (not among the
    sources), steps 1 to 5 of the algorithm: [start()], the namespaces,
    [end()], and the text of [get()].  The instance the exporter holds is
    returned next to the text, for the later [getExtraFiles()]. *)
Definition exportNatives (data : NativeData.t Native) (g : G)
  : Completion (string * G) :=
  g1 <- start g ;;
  g2 <- exportNamespaces (NativeData.natives data)
          (NativeData.namespaces data) g1 ;;
  g3 <- end_ g2 ;;
  text <- get g3 ;;
  Return (text, g3).

(** Modelled from the spec: [NativeExporter.getExtraFiles] (not among the
    sources) hands out the extra files of the backend it drives. *)
Definition exporter_getExtraFiles (g : G) : list CodeGeneratorFile.t :=
  getExtraFiles g.

End NativeExporter.

(** ** The option schema (Language.tsx) *)

(** The [type] tag of an option. *)
Inductive OptionType : Type :=
| type_boolean | type_string | type_combo.

(** [CodeGenOptions<TSettings>]: a boolean, a string or a combo option;
    [prop] names the settings field. *)
Inductive CodeGenOptions : Type :=
| BooleanCodeGenOption (label prop : string)
| StringCodeGenOption (label prop : string)
| ComboCodeGenOption (label prop : string)
    (options : list (string * Js.Value)).

Definition type (o : CodeGenOptions) : OptionType :=
  match o with
  | BooleanCodeGenOption _ _ => type_boolean
  | StringCodeGenOption _ _ => type_string
  | ComboCodeGenOption _ _ _ => type_combo
  end.

Definition label (o : CodeGenOptions) : string :=
  match o with
  | BooleanCodeGenOption l _ | StringCodeGenOption l _
  | ComboCodeGenOption l _ _ => l
  end.

Definition prop (o : CodeGenOptions) : string :=
  match o with
  | BooleanCodeGenOption _ p | StringCodeGenOption _ p
  | ComboCodeGenOption _ p _ => p
  end.

(** ** Change events *)

(** [event.target] of a [ChangeEvent<HTMLInputElement>] or of a
    [SelectChangeEvent]: an input element has a [checked] property, the
    target of a select event has none. *)
Module EventTarget.
Record t : Type := mk
  { name : string;
    value : Js.Value;
    checked : option bool }.
End EventTarget.

Definition has_checked (target : EventTarget.t) : bool :=
  match EventTarget.checked target with Some _ => true | None => false end.

(** ** The settings change handler *)

(** [handleChange]: [Some s] is the call [setSettings(s)], [None] is a
    return without a call. *)
Definition handleChange (settings : Js.PlainObject) (target : EventTarget.t)
  : option Js.PlainObject :=
  let name := EventTarget.name target in
  if negb (Js.has name settings) then None
  else
    let type := Js.typeof (Js.get settings name) in
    match Js.is_boolean type, EventTarget.checked target with
    | true, Some checked =>
        Some (Js.spread_set settings name (Js.Boolean checked))
    | _, _ =>
        Some (Js.spread_set settings name (EventTarget.value target))
    end.

(** The settings state after the handler ran. *)
Definition settingsAfter (settings : Js.PlainObject) (target : EventTarget.t)
  : Js.PlainObject :=
  match handleChange settings target with
  | Some settings' => settings'
  | None => settings
  end.

Definition findOption (options : list CodeGenOptions) (name : string)
  : option CodeGenOptions :=
  List.find (fun o => String.eqb (prop o) name) options.

(** The handler as section 4.4 of the specification words it, for
    comparison with [handleChange]: a field is handled as boolean when the
    option that names it is declared with the [type] tag boolean; the
    current value of the field is not looked at. *)
Definition handleChange_bySchema (options : list CodeGenOptions)
  (settings : Js.PlainObject) (target : EventTarget.t)
  : option Js.PlainObject :=
  let name := EventTarget.name target in
  if negb (Js.has name settings) then None
  else
    match type <$> findOption options name, EventTarget.checked target with
    | Some type_boolean, Some checked =>
        Some (Js.spread_set settings name (Js.Boolean checked))
    | _, _ =>
        Some (Js.spread_set settings name (EventTarget.value target))
    end.

(** ** Preview and download *)

Module PreviewDataExtraFile.
Record t : Type := mk
  { name : string;
    content : string;
    language : string }.
End PreviewDataExtraFile.

Module PreviewData.
Record t : Type := mk
  { main : string;
    extra_files : list PreviewDataExtraFile.t }.
End PreviewData.

(** One call [download(data, filename, mimeType)]. *)
Module Download.
Record t : Type := mk
  { data : string;
    filename : string;
    mimeType : string }.
End Download.

Section Language.
Context {Native G : Type} {backend : ICodeGenerator Native G}.

(** The two fields of a catalog record that the page reads. *)
Variable namespace_of : Native -> string.
Variable hash_of : Native -> string.

(** The properties of the component that the two actions read:
    [generator] is the backend's constructor. *)
Variable generator : Js.PlainObject -> G.
Variable extension : string.

(** The body of the [forEach] in [preview]. *)
Definition previewExtraFile (file : CodeGeneratorFile.t)
  : PreviewDataExtraFile.t :=
  let mimeType := CodeGeneratorFile.mimeType file in
  let language := Js.slice mimeType (Js.indexOf "/" mimeType + 1) in
  {| PreviewDataExtraFile.name :=
       CodeGeneratorFile.name file +:+ "." +:+ CodeGeneratorFile.extension file;
     PreviewDataExtraFile.content := CodeGeneratorFile.content file;
     PreviewDataExtraFile.language := language |}.

(** The catalog [preview] builds around the one native it shows. *)
Definition previewCatalog (nativeData : Native) : NativeData.t Native :=
  {| NativeData.namespaces :=
       [ (namespace_of nativeData,
          {| Namespace.name := namespace_of nativeData;
             Namespace.natives := [ hash_of nativeData ] |}) ];
     NativeData.natives := {[ hash_of nativeData := nativeData ]} |}.

(** [preview], for a native the catalog has: a throw of the exporter
    leaves the computation. *)
Definition preview (settings : Js.PlainObject) (nativeData : Native)
  : Completion PreviewData.t :=
  let exporter := generator settings in
  run <- exportNatives (previewCatalog nativeData) exporter ;;
  let maincode := fst run in
  let exporter := snd run in
  Return
    {| PreviewData.main := maincode;
       PreviewData.extra_files :=
         List.map previewExtraFile (exporter_getExtraFiles exporter) |}.

(** The body of the [forEach] in [handleDownload]. *)
Definition downloadExtraFile (file : CodeGeneratorFile.t) : Download.t :=
  {| Download.data := CodeGeneratorFile.content file;
     Download.filename :=
       CodeGeneratorFile.name file +:+ "." +:+ CodeGeneratorFile.extension file;
     Download.mimeType := CodeGeneratorFile.mimeType file |}.

(** [handleDownload]: the [download] calls it makes, in order. *)
Definition handleDownload (settings : Js.PlainObject)
  (natives : gmap string Native)
  (namespaces : list (string * Namespace.t))
  : Completion (list Download.t) :=
  let exporter := generator settings in
  run <- exportNatives
           {| NativeData.natives := natives;
              NativeData.namespaces := namespaces |} exporter ;;
  let code := fst run in
  let exporter := snd run in
  Return
    ({| Download.data := code;
        Download.filename := "natives." +:+ extension;
        Download.mimeType := "text/plain" |}
       :: List.map downloadExtraFile (exporter_getExtraFiles exporter)).

(** Modelled from the spec: one export run as the caller sees it (the
    exporter is not among the sources): a fresh backend instance is built
    from the settings, driven over the catalog, and asked for its text and
    its extra files. *)
Definition exportRun (settings : Js.PlainObject) (data : NativeData.t Native)
  : Completion (string * list CodeGeneratorFile.t) :=
  run <- exportNatives data (generator settings) ;;
  Return (fst run, exporter_getExtraFiles (snd run)).

End Language.

(** ** A backend's shared state and lifecycle *)

Inductive Phase : Type :=
| Fresh | Started | Ended.

(** Modelled from the spec: the state of one backend instance (the
    generator base class is not among the sources): the settings given to
    the constructor, the place in the lifecycle
    fresh, started, ended, the emission buffer, the stack of open
    namespaces and the extra-file accumulator. *)
Module CodeGeneratorBase.
Record t : Type := mk
  { settings : Js.PlainObject;
    phase : Phase;
    buffer : string;
    openNamespaces : list string;
    extraFiles : list CodeGeneratorFile.t }.
End CodeGeneratorBase.

(** Modelled from the spec: what one target language decides (the
    backends are not among the sources): the text that opens and closes a
    namespace and the text of one declaration, given the settings and the
    nesting depth. *)
Module Syntax.
Record t : Type := mk
  { openNamespace : string -> string;
    closeNamespace : string -> string;
    declaration : Js.PlainObject -> nat -> CodeGenNative.t -> string }.
End Syntax.

Module Base.
Import CodeGeneratorBase.

(** Modelled from the spec: the constructor of a backend (not among the
    sources) keeps the settings; the instance is fresh, its buffer and its
    accumulator are empty. *)
Definition new (settings : Js.PlainObject) : t :=
  {| settings := settings; phase := Fresh; buffer := "";
     openNamespaces := []; extraFiles := [] |}.

Definition emit (text : string) (g : t) : t :=
  {| settings := settings g; phase := phase g;
     buffer := buffer g +:+ text;
     openNamespaces := openNamespaces g; extraFiles := extraFiles g |}.

Definition withNamespaces (stack : list string) (g : t) : t :=
  {| settings := settings g; phase := phase g; buffer := buffer g;
     openNamespaces := stack; extraFiles := extraFiles g |}.

Definition withPhase (p : Phase) (g : t) : t :=
  {| settings := settings g; phase := p; buffer := buffer g;
     openNamespaces := openNamespaces g; extraFiles := extraFiles g |}.

(** Modelled from the spec: [start()] (not among the sources) resets the
    emission buffer and the namespace stack. *)
Definition start (g : t) : Completion t :=
  Return {| settings := settings g; phase := Started; buffer := "";
            openNamespaces := []; extraFiles := extraFiles g |}.

(** Modelled from the spec: [pushNamespace(name)] (not among the
    sources) emits the opening of the scope and tracks the nesting; out of
    the started phase it is a contract violation. *)
Definition pushNamespace (syntax : Syntax.t) (name : string) (g : t)
  : Completion t :=
  match phase g with
  | Started =>
      Return (withNamespaces (name :: openNamespaces g)
                (emit (Syntax.openNamespace syntax name) g))
  | _ => Throw (ContractViolation "pushNamespace")
  end.

(** Modelled from the spec: [addNative(native)] (not among the sources)
    emits one declaration, honouring the nesting and the settings. *)
Definition addNative (syntax : Syntax.t) (native : CodeGenNative.t) (g : t)
  : Completion t :=
  match phase g with
  | Started =>
      Return (emit (Syntax.declaration syntax (settings g)
                      (length (openNamespaces g)) native) g)
  | _ => Throw (ContractViolation "addNative")
  end.

(** Modelled from the spec: [popNamespace()] (not among the sources)
    closes the scope opened last and fails when none is open. *)
Definition popNamespace (syntax : Syntax.t) (g : t) : Completion t :=
  match phase g, openNamespaces g with
  | Started, name :: rest =>
      Return (withNamespaces rest (emit (Syntax.closeNamespace syntax name) g))
  | _, _ => Throw (ContractViolation "popNamespace")
  end.

(** Modelled from the spec: [end()] (not among the sources) requires the
    namespaces to be balanced and finalizes the buffer. *)
Definition end_ (g : t) : Completion t :=
  match phase g, openNamespaces g with
  | Started, [] => Return (withPhase Ended g)
  | _, _ => Throw (ContractViolation "end")
  end.

(** Modelled from the spec: [get()] (not among the sources) returns the
    accumulated text, after [end()] only. *)
Definition get (g : t) : Completion string :=
  match phase g with
  | Ended => Return (buffer g)
  | _ => Throw (ContractViolation "get")
  end.

(** Modelled from the spec: [submitExtraFile(file)] (only its signature
    is among the sources) adds the file at the end of the accumulator. *)
Definition submitExtraFile (file : CodeGeneratorFile.t) (g : t) : t :=
  {| settings := settings g; phase := phase g; buffer := buffer g;
     openNamespaces := openNamespaces g;
     extraFiles := extraFiles g ++ [file] |}.

(** Modelled from the spec: [getExtraFiles()] (only its signature is
    among the sources) reads the accumulator. *)
Definition getExtraFiles (g : t) : list CodeGeneratorFile.t :=
  extraFiles g.

(** Modelled from the spec: [clearExtraFiles()] (only its signature is
    among the sources) empties the accumulator. *)
Definition clearExtraFiles (g : t) : t :=
  {| settings := settings g; phase := phase g; buffer := buffer g;
     openNamespaces := openNamespaces g; extraFiles := [] |}.

(** The calls a driver or a backend makes on an instance during a run. *)
Inductive Call : Type :=
| call_start
| call_pushNamespace (name : string)
| call_addNative (native : CodeGenNative.t)
| call_popNamespace
| call_end
| call_submitExtraFile (file : CodeGeneratorFile.t).

Definition perform (syntax : Syntax.t) (c : Call) (g : t) : Completion t :=
  match c with
  | call_start => start g
  | call_pushNamespace name => pushNamespace syntax name g
  | call_addNative native => addNative syntax native g
  | call_popNamespace => popNamespace syntax g
  | call_end => end_ g
  | call_submitExtraFile file => Return (submitExtraFile file g)
  end.

Fixpoint performAll (syntax : Syntax.t) (calls : list Call) (g : t)
  : Completion t :=
  match calls with
  | [] => Return g
  | c :: rest => g' <- perform syntax c g ;; performAll syntax rest g'
  end.

(** The files submitted by a sequence of calls, in call order. *)
Fixpoint submitted (calls : list Call) : list CodeGeneratorFile.t :=
  match calls with
  | [] => []
  | call_submitExtraFile file :: rest => file :: submitted rest
  | _ :: rest => submitted rest
  end.

End Base.

(** ** A C-style backend with a manifest, and sample data *)

Module Native.
(** Modelled from the spec: the catalog's record (declared outside the
    files at hand), with the fields the core consumes; the types are
    already structured, as in the concrete scenario of the
    specification. *)
Record t : Type := mk
  { namespace : string;
    hash : string;
    jhash : option string;
    name : string;
    params : list CodeGenParam.t;
    returnType : CodeGenType.t;
    comment : string;
    build : option string;
    oldNames : option (list string) }.
End Native.

Module CStyle.

Definition newline : string := String.String (Ascii.ascii_of_nat 10) "".

Fixpoint stars (n : nat) : string :=
  match n with
  | O => ""
  | S k => "*" +:+ stars k
  end.

Fixpoint indent (depth : nat) : string :=
  match depth with
  | O => ""
  | S k => "  " +:+ indent k
  end.

Fixpoint join (separator : string) (parts : list string) : string :=
  match parts with
  | [] => ""
  | [ part ] => part
  | part :: rest => part +:+ separator +:+ join separator rest
  end.

(** Modelled from the spec: the type expression of a C-style backend
    (the backends are not among the sources): the const qualifier once in
    front, the base type, one pointer marker per indirection. *)
Definition formatType (t : CodeGenType.t) : string :=
  (if CodeGenType.isConst t then "const " else "")
  +:+ CodeGenType.baseType t
  +:+ stars (Z.to_nat (CodeGenType.pointers t)).

(** Modelled from the spec: a parameter of the C-style backend, its type
    and its name as in the concrete scenario. *)
Definition formatParam (p : CodeGenParam.t) : string :=
  formatType (CodeGenParam.type p) +:+ " " +:+ CodeGenParam.name p.

(** Modelled from the spec: a boolean option of the backend's settings
    ("emit comments"), read from the settings object. *)
Definition wantsComments (settings : Js.PlainObject) : bool :=
  match Js.get settings "generateComments" with
  | Js.Boolean true => true
  | _ => false
  end.

(** Modelled from the spec: the syntax of a backend producing C-style
    output (the backends are not among the sources), after the concrete
    scenario: a namespace block with braces, one indented prototype per
    native. *)
Definition syntax : Syntax.t :=
  {| Syntax.openNamespace := fun name =>
       "namespace " +:+ name +:+ newline +:+ "{" +:+ newline;
     Syntax.closeNamespace := fun _ => "}" +:+ newline;
     Syntax.declaration := fun settings depth native =>
       (if wantsComments settings
        then indent depth +:+ "// " +:+ CodeGenNative.comment native
             +:+ newline
        else "")
       +:+ indent depth
       +:+ formatType (CodeGenNative.returnType native) +:+ " "
       +:+ CodeGenNative.name native +:+ "("
       +:+ join ", " (List.map formatParam (CodeGenNative.params native))
       +:+ ");" +:+ newline |}.

(** The instance: the shared state and the hashes seen during the run. *)
Record t : Type := mk
  { base : CodeGeneratorBase.t;
    seen : list string }.

(** Modelled from the spec: the constructor receives the settings
    whole. *)
Definition new (settings : Js.PlainObject) : t :=
  {| base := Base.new settings; seen := [] |}.

Definition lift (f : CodeGeneratorBase.t -> Completion CodeGeneratorBase.t)
  (g : t) : Completion t :=
  b <- f (base g) ;; Return {| base := b; seen := seen g |}.

(** Modelled from the spec: [nativeToCodeGenNative] of this backend
    keeps the fields of the catalog's record that the normalized native
    has. *)
Definition convert (_ : t) (native : Native.t)
  : Completion CodeGenNative.t :=
  Return
    {| CodeGenNative.hash := Native.hash native;
       CodeGenNative.jhash := Native.jhash native;
       CodeGenNative.params := Native.params native;
       CodeGenNative.returnType := Native.returnType native;
       CodeGenNative.name := Native.name native;
       CodeGenNative.comment := Native.comment native;
       CodeGenNative.build := Native.build native;
       CodeGenNative.oldNames := Native.oldNames native |}.

(** Modelled from the spec: a companion manifest collecting the hashes
    seen during the run. *)
Definition manifest (hashes : list string) : CodeGeneratorFile.t :=
  {| CodeGeneratorFile.name := "manifest";
     CodeGeneratorFile.extension := "txt";
     CodeGeneratorFile.content := join newline hashes;
     CodeGeneratorFile.mimeType := "text/plain" |}.

(** Modelled from the spec: a backend that registers an extra file
    during [end()], a manifest of the hashes seen during the run (the
    backends are not among the sources). *)
Definition generator : ICodeGenerator Native.t t :=
  {| start := fun g =>
       b <- Base.start (base g) ;; Return {| base := b; seen := [] |};
     end_ := fun g =>
       b <- Base.end_ (base g) ;;
       Return {| base := Base.submitExtraFile (manifest (seen g)) b;
                 seen := seen g |};
     nativeToCodeGenNative := convert;
     addNative := fun native g =>
       b <- Base.addNative syntax native (base g) ;;
       Return {| base := b;
                 seen := seen g ++ [ CodeGenNative.hash native ] |};
     pushNamespace := fun name => lift (Base.pushNamespace syntax name);
     popNamespace := lift (Base.popNamespace syntax);
     get := fun g => Base.get (base g);
     submitExtraFile := fun file g =>
       {| base := Base.submitExtraFile file (base g); seen := seen g |};
     getExtraFiles := fun g => Base.getExtraFiles (base g);
     clearExtraFiles := fun g =>
       {| base := Base.clearExtraFiles (base g); seen := seen g |} |}.

End CStyle.

Module Sample.

Definition constCharPointer : CodeGenType.t :=
  {| CodeGenType.pointers := 1;
     CodeGenType.baseType := "char";
     CodeGenType.isConst := true |}.

(** The native of the concrete scenario. *)
Definition GET_LABEL_TEXT : Native.t :=
  {| Native.namespace := "NATIVE";
     Native.hash := "0xD49F9B0955C367DE";
     Native.jhash := None;
     Native.name := "GET_LABEL_TEXT";
     Native.params :=
       [ {| CodeGenParam.type := constCharPointer;
            CodeGenParam.name := "labelName" |} ];
     Native.returnType := constCharPointer;
     Native.comment := "";
     Native.build := None;
     Native.oldNames := None |}.

Definition natives : gmap string Native.t :=
  {[ "0xD49F9B0955C367DE" := GET_LABEL_TEXT ]}.

Definition namespaces : list (string * Namespace.t) :=
  [ ("NATIVE",
     {| Namespace.name := "NATIVE";
        Namespace.natives := [ "0xD49F9B0955C367DE" ] |}) ].

Definition catalog : NativeData.t Native.t :=
  {| NativeData.natives := natives; NativeData.namespaces := namespaces |}.

(** A catalog whose second namespace lists a hash the natives lack. *)
Definition brokenNamespaces : list (string * Namespace.t) :=
  namespaces ++
  [ ("SYSTEM",
     {| Namespace.name := "SYSTEM";
        Namespace.natives := [ "0x4EDE34FBADD967A6" ] |}) ].

Definition brokenCatalog : NativeData.t Native.t :=
  {| NativeData.natives := natives;
     NativeData.namespaces := brokenNamespaces |}.

Definition settings : Js.PlainObject :=
  <[ "indentation" := Js.String "spaces" ]>
    {[ "generateComments" := Js.Boolean false ]}.

Definition expectedText : string :=
  "namespace NATIVE" +:+ CStyle.newline
  +:+ "{" +:+ CStyle.newline
  +:+ "  const char* GET_LABEL_TEXT(const char* labelName);" +:+ CStyle.newline
  +:+ "}" +:+ CStyle.newline.

(** Settings left in storage by an earlier version: the field of a
    boolean option holds a string. *)
Definition staleSettings : Js.PlainObject :=
  {[ "generateComments" := Js.String "yes" ]}.

Definition options : list CodeGenOptions :=
  [ BooleanCodeGenOption "Include comments" "generateComments" ].

(** The event of a click on the checkbox of that option. *)
Definition checkboxEvent : EventTarget.t :=
  {| EventTarget.name := "generateComments";
     EventTarget.value := Js.String "on";
     EventTarget.checked := Some true |}.

(** The event of a select control. *)
Definition selectEvent : EventTarget.t :=
  {| EventTarget.name := "generateComments";
     EventTarget.value := Js.String "never";
     EventTarget.checked := None |}.

(** An event for a field the settings lack. *)
Definition unknownEvent : EventTarget.t :=
  {| EventTarget.name := "cppCompliant";
     EventTarget.value := Js.String "on";
     EventTarget.checked := Some true |}.

(** A run of calls with two submissions between the lifecycle calls. *)
Definition calls : list Base.Call :=
  [ Base.call_start;
    Base.call_submitExtraFile (CStyle.manifest [ "a" ]);
    Base.call_pushNamespace "NATIVE";
    Base.call_submitExtraFile (CStyle.manifest [ "b" ]);
    Base.call_popNamespace;
    Base.call_end ].

End Sample.

(** ** The settings form and the page (Language.tsx) *)

(** The settings after a run of change events, one render apart: each
    event is handled by the handler that closes over the settings the
    event before left ([useCallback] renews it with [settings]). *)
Fixpoint handleChanges (settings : Js.PlainObject)
  (events : list EventTarget.t) : Js.PlainObject :=
  match events with
  | [] => settings
  | target :: rest => handleChanges (settingsAfter settings target) rest
  end.

Module MenuItem.
Record t : Type := mk
  { key : Js.Value;
    value : Js.Value;
    label : string }.
End MenuItem.

(** What [CodeGenOptionComponent] renders: a checkbox, a select with its
    menu items, or a text field.  Every control reports to the same
    [onChange]. *)
Inductive Control : Type :=
| Checkbox (checked : Js.Value) (name label : string)
| Select (id label labelId name : string) (value : Js.Value)
    (items : list MenuItem.t)
| TextField (label name : string) (value : Js.Value).

(** [CodeGenOptionComponent]: the [switch] over the [type] tag. *)
Definition CodeGenOptionComponent (option : CodeGenOptions)
  (value : Js.Value) : Control :=
  match option with
  | BooleanCodeGenOption label prop => Checkbox value prop label
  | ComboCodeGenOption label prop options =>
      Select (prop +:+ "-select") label (prop +:+ "-label") prop value
        (List.map
           (fun o => {| MenuItem.key := snd o;
                        MenuItem.value := snd o;
                        MenuItem.label := fst o |})
           options)
  | StringCodeGenOption label prop => TextField label prop value
  end.

(** The [name] attribute of a control: the name its change events carry. *)
Definition controlName (c : Control) : string :=
  match c with
  | Checkbox _ name _ => name
  | Select _ _ _ name _ _ => name
  | TextField _ name _ => name
  end.

(** What a control displays: [checked] of a checkbox, [value] of the
    others. *)
Definition controlValue (c : Control) : Js.Value :=
  match c with
  | Checkbox checked _ _ => checked
  | Select _ _ _ _ value _ => value
  | TextField _ _ value => value
  end.

(** [options.map(props => <CodeGenOptionComponent value={settings[props.prop]}
    {...props} />)]. *)
Definition renderOptions (settings : Js.PlainObject)
  (options : list CodeGenOptions) : list Control :=
  List.map
    (fun props => CodeGenOptionComponent props (Js.get settings (prop props)))
    options.

(** What leaves the render of the page by a throw. *)
Inductive RenderError : Type :=
| TypeError (reading : string)
| ExportThrew (e : Thrown).

(** The grid the page returns: the settings column, the preview column
    and, when the backend has extra files, a third column. *)
Module Page.
Record t : Type := mk
  { settingsMd : nat;
    controls : list Control;
    advancedControls : list Control;
    selectedNative : string;
    previewMd : nat;
    language : string;
    code : string;
    extraFilesColumn : option (nat * list PreviewDataExtraFile.t) }.
End Page.

Inductive Rendered : Type :=
| RenderThrows (e : RenderError)
| RenderNull (setPreviewNative : string)
| RenderGrid (page : Page.t).

Section LanguagePage.
Context {Native G : Type} {backend : ICodeGenerator Native G}.
Variable namespace_of : Native -> string.
Variable hash_of : Native -> string.
Variable generator : Js.PlainObject -> G.
Variable name : string.
Variable options : list CodeGenOptions.
Variable advancedOptions : list CodeGenOptions.

(** The [preview] memo as the render evaluates it: [nativeData] is what
    [useNative] gave, [None] when the catalog has no such native; reading
    [nativeData.namespace] of an undefined value throws. *)
Definition previewMemo (settings : Js.PlainObject)
  (nativeData : option Native) : RenderError + PreviewData.t :=
  match nativeData with
  | None => inl (TypeError "namespace")
  | Some native =>
      match preview namespace_of hash_of generator settings native with
      | Return data => inr data
      | Throw e => inl (ExportThrew e)
      end
  end.

(** The width of the settings and of the preview column:
    [preview.extra_files.length > 0 ? 4 : 6]. *)
Definition columnMd (data : PreviewData.t) : nat :=
  if (0 <? length (PreviewData.extra_files data))%nat then 4%nat else 6%nat.

(** One render of [Language]: the hooks first, the [preview] memo among
    them, then the test of [nativeData], then the grid. *)
Definition Language (settings : Js.PlainObject) (previewNative : string)
  (nativeData : option Native) : Rendered :=
  match previewMemo settings nativeData with
  | inl e => RenderThrows e
  | inr data =>
      match nativeData with
      | None => RenderNull "0x4EDE34FBADD967A6"
      | Some _ =>
          RenderGrid
            {| Page.settingsMd := columnMd data;
               Page.controls := renderOptions settings options;
               Page.advancedControls := renderOptions settings advancedOptions;
               Page.selectedNative := previewNative;
               Page.previewMd := columnMd data;
               Page.language := name;
               Page.code := PreviewData.main data;
               Page.extraFilesColumn :=
                 if (0 <? length (PreviewData.extra_files data))%nat
                 then Some (4%nat, PreviewData.extra_files data)
                 else None |}
      end
  end.


End LanguagePage.

(** ** The mobile app bar (components/AppBar/Mobile.tsx) *)

(** A string in a condition: [undefined] and the empty string are
    falsy. *)
Definition truthy (s : option string) : bool :=
  match s with
  | Some text => negb (String.eqb text "")
  | None => false
  end.

(** [s.includes(needle)]. *)
Definition includes (s needle : string) : bool :=
  negb (Js.indexOf needle s =? -1).

(** The functions an action can carry as [onClick]: the two handlers of
    the bar, or one given with the settings of the bar. *)
Inductive Callback : Type :=
| handleSettingsOpen
| handleStatsDialogOpen
| givenCallback (id : string).

(** [{ text, mobileIcon, buttonProps: { href, target, onClick } }]. *)
Module AppBarAction.
Record t : Type := mk
  { text : string;
    mobileIcon : option string;
    href : option string;
    target : option string;
    onClick : option Callback }.
End AppBarAction.

(** What a click on a menu item does, in order. *)
Inductive ClickEffect : Type :=
| WindowOpen (href : string) (target : option string)
| HistoryPush (href : string)
| Invoke (callback : Callback).

(** [handleClick] of [AppBarAction]. *)
Definition handleClick (action : AppBarAction.t) : list ClickEffect :=
  (match AppBarAction.href action with
   | Some href =>
       if truthy (Some href) then
         if (includes href "://" || truthy (AppBarAction.target action))%bool
         then [ WindowOpen href (AppBarAction.target action) ]
         else [ HistoryPush href ]
       else []
   | None => []
   end)
  ++
  (match AppBarAction.onClick action with
   | Some callback => [ Invoke callback ]
   | None => []
   end).

(** What [useAppBarSettings] gives, as far as the bar reads it. *)
Module AppBarSettings.
Record t : Type := mk
  { actions : option (list AppBarAction.t);
    title : option string }.
End AppBarSettings.

(** The [actions] memo of [Mobile]: the actions of the settings, then the
    four of the bar. *)
Definition actions (settings : AppBarSettings.t) : list AppBarAction.t :=
  default [] (AppBarSettings.actions settings)
  ++ [ {| AppBarAction.text := "Settings";
          AppBarAction.mobileIcon := Some "SettingsIcon";
          AppBarAction.href := None;
          AppBarAction.target := None;
          AppBarAction.onClick := Some handleSettingsOpen |};
       {| AppBarAction.text := "Stats";
          AppBarAction.mobileIcon := Some "StatsIcon";
          AppBarAction.href := None;
          AppBarAction.target := None;
          AppBarAction.onClick := Some handleStatsDialogOpen |};
       {| AppBarAction.text := "Generate Code";
          AppBarAction.mobileIcon := Some "CodeIcon";
          AppBarAction.href := Some "/generate-code";
          AppBarAction.target := None;
          AppBarAction.onClick := None |};
       {| AppBarAction.text := "View on Github";
          AppBarAction.mobileIcon := Some "GithubIcon";
          AppBarAction.href := Some "https://github.com/DottieDot/GTAV-NativeDB";
          AppBarAction.target := Some "_blank";
          AppBarAction.onClick := None |} ].

(** ** The page of one native (pages/NativesPage/NativeInfo.tsx) *)

(** The two games the page names, and any other member of the
    enumeration. *)
Inductive Game : Type :=
| GrandTheftAuto5 | RedDeadRedemption2 | otherGame (name : string).

Inductive NativeSources : Type :=
| DottieDot | otherSource (name : string).

(** The fields of a catalog record that the page tests before it shows
    them. *)
Module ShownNative.
Record t : Type := mk
  { name : string;
    hash : string;
    schComment : option string;
    comment : option string;
    examples : option (list string);
    oldNames : option (list string);
    gtaHash : option string }.
End ShownNative.

(** The blocks of the page inside its stack, top to bottom (the dialog
    with the definition of the other game is left out). *)
Inductive Block : Type :=
| DefinitionBlock
| RockstarDescription (text : string)
| Description (text : string)
| Examples (examples : list string)
| OldNames (heading : string) (names : list string)
| ScriptUsage (nativeHash : string)
| Gta5DefinitionButton
| Comments (term : string).

Inductive InfoView : Type :=
| NoNativeSelected
| NativeNotFound (nativeHash : string)
| Info (heading : string) (blocks : list Block).

Definition when {A : Type} (condition : bool) (block : A) : list A :=
  if condition then [ block ] else [].

Definition isDottieDot (source : NativeSources) : bool :=
  match source with DottieDot => true | otherSource _ => false end.

Definition isRedDeadRedemption2 (game : Game) : bool :=
  match game with RedDeadRedemption2 => true | _ => false end.

Section NativeInfo.
(** [useNative] and [toPascalCase] are imported from files outside the
    ones at hand. *)
Variable useNative : string -> option ShownNative.t.
Variable toPascalCase : string -> string.

(** The blocks below the heading, each under its condition. *)
Definition blocks (native : ShownNative.t) (nativeHash : string)
  (usageNotFound : bool) (sources : list NativeSources) (game : Game)
  : list Block :=
  [ DefinitionBlock ]
  ++ match ShownNative.schComment native with
     | Some text => when (truthy (Some text)) (RockstarDescription text)
     | None => []
     end
  ++ match ShownNative.comment native with
     | Some text => when (truthy (Some text)) (Description text)
     | None => []
     end
  ++ match ShownNative.examples native with
     | Some examples =>
         when (negb (Nat.eqb (length examples) 0)) (Examples examples)
     | None => []
     end
  ++ match ShownNative.oldNames native with
     | Some names =>
         [ OldNames
             ("Old name"
              +:+ (if negb (Nat.eqb (length names) 1) then "s" else ""))
             names ]
     | None => []
     end
  ++ when (negb usageNotFound && existsb isDottieDot sources)%bool
       (ScriptUsage nativeHash)
  ++ when (isRedDeadRedemption2 game
           && truthy (ShownNative.gtaHash native))%bool
       Gta5DefinitionButton
  ++ [ Comments (ShownNative.hash native) ].

(** One render of [NativeInfo]: [nativeHashParam] is the property
    [native], [nativeHashNotNull] what [useLastNotNull] gave for it,
    [isSmall] what [useIsSmallDisplay] gave. *)
Definition NativeInfo (nativeHashParam nativeHashNotNull : option string)
  (isSmall : bool) (nativeDisplayMode : string)
  (sources : list NativeSources) (game : Game) (usageNotFound : bool)
  : InfoView :=
  let nativeHash := if isSmall then nativeHashNotNull else nativeHashParam in
  let native := useNative (default "" nativeHash) in
  if negb (truthy nativeHash) then NoNativeSelected
  else
    match native with
    | None => NativeNotFound (default "" nativeHash)
    | Some native =>
        Info
          (if String.eqb nativeDisplayMode "TS"
           then toPascalCase (ShownNative.name native)
           else ShownNative.name native)
          (blocks native (default "" nativeHash) usageNotFound sources game)
    end.

End NativeInfo.

(** A native without comment that lists no old name, and a catalog of
    that one native. *)
Module SampleInfo.

Definition WAIT : ShownNative.t :=
  {| ShownNative.name := "WAIT";
     ShownNative.hash := "0x4EDE34FBADD967A6";
     ShownNative.schComment := None;
     ShownNative.comment := Some "";
     ShownNative.examples := Some [];
     ShownNative.oldNames := Some [];
     ShownNative.gtaHash := None |}.

Definition useNative (hash : string) : option ShownNative.t :=
  if String.eqb hash "0x4EDE34FBADD967A6" then Some WAIT else None.

End SampleInfo.

(** * Properties *)

Local Open Scope list_scope.

(** ** Completions *)

Lemma bind_Return {A B : Type} (c : Completion A) (k : A -> Completion B)
  (b : B) :
  bind c k = Return b -> exists a, c = Return a /\ k a = Return b.
Proof.
  destruct c as [a | e]; simpl; intros H.
  - exists a. split; [reflexivity | exact H].
  - discriminate H.
Qed.

Lemma bind_throws {A B : Type} (c : Completion A) (k : A -> Completion B) :
  (forall a, exists e, k a = Throw e) -> exists e, bind c k = Throw e.
Proof.
  intros Hk. destruct c as [a | e]; simpl.
  - apply Hk.
  - exists e. reflexivity.
Qed.

(** Splits a hypothesis [bind c k = Return b] into its two steps. *)
Ltac bind_inv H :=
  let a := fresh "g" in
  let Ha := fresh "H" a in
  apply bind_Return in H; destruct H as (a & Ha & H).

(** ** Plain objects *)

Lemma has_true_iff (key : string) (o : Js.PlainObject) :
  Js.has key o = true <-> is_Some (o !! key) \/ is_Some (Js.inherited key).
Proof.
  unfold Js.has. destruct (o !! key) as [v |] eqn:Hown.
  - split; [intros _; left; eauto | reflexivity].
  - destruct (Js.inherited key) as [v |] eqn:Hproto.
    + split; [intros _; right; eauto | reflexivity].
    + split; [discriminate |].
      intros [[v Hv] | [v Hv]]; discriminate.
Qed.

(** For a name that [Object.prototype] does not define, [in] is the test
    for an own key. *)
Lemma has_own_key (key : string) (o : Js.PlainObject) :
  Js.inherited key = None ->
  Js.has key o = bool_decide (is_Some (o !! key)).
Proof.
  intros Hproto. unfold Js.has. rewrite Hproto.
  destruct (o !! key) as [v |] eqn:Hown.
  - symmetry. apply bool_decide_eq_true. eauto.
  - symmetry. apply bool_decide_eq_false. intros [v Hv]. discriminate.
Qed.

Lemma spread_set_lookup (o : Js.PlainObject) (key : string) (v : Js.Value) :
  Js.spread_set o key v !! key = Some v.
Proof. unfold Js.spread_set. apply lookup_insert_eq. Qed.

Lemma spread_set_lookup_ne (o : Js.PlainObject) (key other : string)
  (v : Js.Value) :
  other <> key -> Js.spread_set o key v !! other = o !! other.
Proof. intros Hne. unfold Js.spread_set. apply lookup_insert_ne. congruence. Qed.

Lemma spread_set_get_ne (o : Js.PlainObject) (key other : string)
  (v : Js.Value) :
  other <> key -> Js.get (Js.spread_set o key v) other = Js.get o other.
Proof.
  intros Hne. unfold Js.get. rewrite spread_set_lookup_ne by exact Hne.
  reflexivity.
Qed.

(** ** The settings change handler *)

Lemma handleChange_accepts (settings : Js.PlainObject) (target : EventTarget.t) :
  Js.has (EventTarget.name target) settings = true ->
  exists v, handleChange settings target
            = Some (Js.spread_set settings (EventTarget.name target) v).
Proof.
  intros Hin. unfold handleChange. rewrite Hin. simpl.
  destruct (Js.is_boolean _), (EventTarget.checked target); eauto.
Qed.

Lemma handleChange_Some (settings settings' : Js.PlainObject)
  (target : EventTarget.t) :
  handleChange settings target = Some settings' ->
  Js.has (EventTarget.name target) settings = true /\
  exists v, settings' = Js.spread_set settings (EventTarget.name target) v.
Proof.
  intros H.
  destruct (Js.has (EventTarget.name target) settings) eqn:Hin.
  - split; [reflexivity |].
    destruct (handleChange_accepts settings target Hin) as [v Hv].
    exists v. congruence.
  - unfold handleChange in H. rewrite Hin in H. discriminate H.
Qed.

(** With settings that fit the schema (the field of an option holds a
    boolean exactly when the option is declared boolean) the handler and
    its schema-driven reading agree. *)
Lemma handleChange_bySchema_agrees (options : list CodeGenOptions)
  (settings : Js.PlainObject) (target : EventTarget.t) :
  (Js.is_boolean (Js.typeof (Js.get settings (EventTarget.name target))) = true
   <-> type <$> findOption options (EventTarget.name target)
       = Some type_boolean) ->
  handleChange settings target = handleChange_bySchema options settings target.
Proof.
  intros Hfit. unfold handleChange, handleChange_bySchema.
  destruct (negb _); [reflexivity |]. simpl.
  destruct (Js.is_boolean _) eqn:Hbool.
  - rewrite (proj1 Hfit eq_refl). reflexivity.
  - destruct (type <$> findOption options (EventTarget.name target))
      as [[] |] eqn:Hopt;
      try (destruct (EventTarget.checked target); reflexivity).
    pose proof (proj2 Hfit eq_refl). discriminate.
Qed.




(** C3, as the specification states it, fails: [toString] is not a key
    of the sample settings, yet the handler accepts an event of that
    name, since [Object.prototype] defines it, and passes on settings
    with a new field [toString]. *)
Lemma handleChange_inherited_field_written :
  Sample.settings !! "toString" = None /\
  handleChange Sample.settings
    {| EventTarget.name := "toString";
       EventTarget.value := Js.String "on";
       EventTarget.checked := Some true |}
  = Some (<[ "toString" := Js.String "on" ]> Sample.settings) /\
  settingsAfter Sample.settings
    {| EventTarget.name := "toString";
       EventTarget.value := Js.String "on";
       EventTarget.checked := Some true |}
  <> Sample.settings.
Proof.
  split; [reflexivity |]. split; [reflexivity |].
  intros Heq.
  apply (f_equal (fun o : Js.PlainObject => o !! "toString")) in Heq.
  vm_compute in Heq. discriminate Heq.
Qed.

(** C3, amended: a change event whose target name is neither a key of
    the settings nor a name that [Object.prototype] defines makes the
    handler return without a call of [setSettings]: the settings stay as
    they are, and nothing is thrown, the handler being a total
    function. *)
Theorem handleChange_unknown_field (settings : Js.PlainObject)
  (target : EventTarget.t) :
  settings !! EventTarget.name target = None ->
  Js.inherited (EventTarget.name target) = None ->
  handleChange settings target = None /\
  settingsAfter settings target = settings.
Proof.
  intros Hown Hproto.
  assert (Hin : Js.has (EventTarget.name target) settings = false).
  { unfold Js.has. rewrite Hown, Hproto. reflexivity. }
  unfold settingsAfter, handleChange. rewrite Hin.
  split; reflexivity.
Qed.

Lemma handleChange_unknown_field_witness :
  handleChange Sample.settings Sample.unknownEvent = None /\
  settingsAfter Sample.settings Sample.unknownEvent = Sample.settings.
Proof.
  apply (handleChange_unknown_field Sample.settings Sample.unknownEvent);
    reflexivity.
Defined.

(** C7: for a field that exists in the settings, the handler calls
    [setSettings] with settings in which that field holds the checked
    flag of the target, when the field held a boolean and the target
    carries the flag, and the raw value of the target in every other
    case. *)
Theorem handleChange_writes_checked_or_value (settings : Js.PlainObject)
  (target : EventTarget.t) :
  Js.has (EventTarget.name target) settings = true ->
  exists settings',
    handleChange settings target = Some settings' /\
    settings' !! EventTarget.name target
    = Some (match Js.typeof (Js.get settings (EventTarget.name target)),
                  EventTarget.checked target with
            | Js.t_boolean, Some checked => Js.Boolean checked
            | _, _ => EventTarget.value target
            end).
Proof.
  intros Hin. unfold handleChange. rewrite Hin. simpl.
  destruct (Js.typeof _), (EventTarget.checked target);
    eexists; (split; [reflexivity | apply spread_set_lookup]).
Qed.

Lemma handleChange_writes_checked_or_value_witness :
  (exists settings',
     handleChange Sample.settings Sample.checkboxEvent = Some settings' /\
     settings' !! "generateComments" = Some (Js.Boolean true)) /\
  (exists settings',
     handleChange Sample.settings Sample.selectEvent = Some settings' /\
     settings' !! "generateComments" = Some (Js.String "never")).
Proof.
  split.
  - apply (handleChange_writes_checked_or_value Sample.settings
             Sample.checkboxEvent). reflexivity.
  - apply (handleChange_writes_checked_or_value Sample.settings
             Sample.selectEvent). reflexivity.
Defined.

(** C10: when the handler accepts an event, the settings it passes on
    agree with the previous ones at every field other than the one the
    target names. *)
Theorem handleChange_frame (settings settings' : Js.PlainObject)
  (target : EventTarget.t) (key : string) :
  handleChange settings target = Some settings' ->
  key <> EventTarget.name target ->
  settings' !! key = settings !! key /\
  Js.get settings' key = Js.get settings key.
Proof.
  intros Hcall Hne.
  apply handleChange_Some in Hcall as (_ & v & ->).
  split.
  - apply spread_set_lookup_ne. exact Hne.
  - apply spread_set_get_ne. exact Hne.
Qed.

Lemma handleChange_frame_witness :
  Js.spread_set Sample.settings "generateComments" (Js.Boolean true)
    !! "indentation" = Sample.settings !! "indentation" /\
  Js.get (Js.spread_set Sample.settings "generateComments" (Js.Boolean true))
    "indentation" = Js.get Sample.settings "indentation".
Proof.
  apply (handleChange_frame Sample.settings
           (Js.spread_set Sample.settings "generateComments" (Js.Boolean true))
           Sample.checkboxEvent "indentation").
  - reflexivity.
  - discriminate.
Defined.

(** ** The generator interface *)



(** ** The exporter *)

Section NativeExporterFacts.
Context {Native G : Type} {backend : ICodeGenerator Native G}.

(** A hash the natives lack fails the inner loop, whatever the backend
    does with the hashes before it. *)
Lemma exportHashes_missing (natives : gmap string Native)
  (hashes : list string) (missing : string) :
  missing ∈ hashes -> natives !! missing = None ->
  forall g, exists e, exportHashes natives hashes g = Throw e.
Proof.
  intros Hin Hmissing.
  induction hashes as [| hash rest IH]; intros g.
  - apply elem_of_nil in Hin. contradiction.
  - simpl. destruct (natives !! hash) as [raw |] eqn:Hlookup.
    + assert (Hrest : missing ∈ rest).
      { apply elem_of_cons in Hin as [-> | Hrest]; [congruence | exact Hrest]. }
      apply bind_throws. intros native.
      apply bind_throws. intros g'.
      apply (IH Hrest).
    + eexists. reflexivity.
Qed.

Lemma exportNamespaces_missing (natives : gmap string Native)
  (namespaces : list (string * Namespace.t)) (key : string)
  (namespace : Namespace.t) (missing : string) :
  (key, namespace) ∈ namespaces ->
  missing ∈ Namespace.natives namespace ->
  natives !! missing = None ->
  forall g, exists e, exportNamespaces natives namespaces g = Throw e.
Proof.
  intros Hns Hin Hmissing.
  induction namespaces as [| [key' namespace'] rest IH]; intros g.
  - apply elem_of_nil in Hns. contradiction.
  - simpl. apply bind_throws. intros g1.
    apply elem_of_cons in Hns as [Hhead | Hrest].
    + injection Hhead as <- <-.
      destruct (exportHashes_missing natives _ missing Hin Hmissing g1)
        as [e He].
      exists e. rewrite He. reflexivity.
    + apply bind_throws. intros g2.
      apply bind_throws. intros g3.
      apply (IH Hrest).
Qed.

(** C2: when some namespace of the catalog lists a hash that the natives
    of the catalog lack, [exportNatives] throws: the run ends without a
    text, for every backend and every state of it. *)
Theorem exportNatives_missing_hash (data : NativeData.t Native)
  (key : string) (namespace : Namespace.t) (missing : string) (g : G) :
  (key, namespace) ∈ NativeData.namespaces data ->
  missing ∈ Namespace.natives namespace ->
  NativeData.natives data !! missing = None ->
  exists e, exportNatives data g = Throw e.
Proof.
  intros Hns Hin Hmissing. unfold exportNatives.
  apply bind_throws. intros g1.
  destruct (exportNamespaces_missing _ _ key namespace missing
              Hns Hin Hmissing g1) as [e He].
  exists e. rewrite He. reflexivity.
Qed.

(** When no method of the backend throws before the missing hash is
    reached, the failure is the data-integrity error. *)
Lemma exportHashes_missing_first (natives : gmap string Native)
  (missing : string) (rest : list string) (g : G) :
  natives !! missing = None ->
  exportHashes natives (missing :: rest) g
  = Throw (DataIntegrityError missing).
Proof. intros Hmissing. simpl. rewrite Hmissing. reflexivity. Qed.

Variable generator : Js.PlainObject -> G.
Variable extension : string.

(** The download action ends with the exporter: no [download] call is
    made for a catalog with a missing hash. *)
Lemma handleDownload_missing_hash (settings : Js.PlainObject)
  (natives : gmap string Native) (namespaces : list (string * Namespace.t))
  (key : string) (namespace : Namespace.t) (missing : string) :
  (key, namespace) ∈ namespaces ->
  missing ∈ Namespace.natives namespace ->
  natives !! missing = None ->
  exists e, handleDownload generator extension settings natives namespaces
            = Throw e.
Proof.
  intros Hns Hin Hmissing. unfold handleDownload.
  destruct (exportNatives_missing_hash
              {| NativeData.natives := natives;
                 NativeData.namespaces := namespaces |}
              key namespace missing (generator settings) Hns Hin Hmissing)
    as [e He].
  exists e. rewrite He. reflexivity.
Qed.

(** C8: after an export run that returns, the download action makes one
    [download] call per extra file of the backend, after the call for the
    main text and in the order of [getExtraFiles()]; the call for a file
    carries its content and its MIME type, and its filename is the name
    of the file, a dot, and its extension. *)
Theorem handleDownload_extra_files (settings : Js.PlainObject)
  (natives : gmap string Native) (namespaces : list (string * Namespace.t))
  (code : string) (g : G) (i : nat) (file : CodeGeneratorFile.t) :
  exportNatives {| NativeData.natives := natives;
                   NativeData.namespaces := namespaces |}
    (generator settings) = Return (code, g) ->
  getExtraFiles g !! i = Some file ->
  exists downloads,
    handleDownload generator extension settings natives namespaces
      = Return downloads /\
    length downloads = S (length (getExtraFiles g)) /\
    downloads !! S i
      = Some {| Download.data := CodeGeneratorFile.content file;
                Download.filename :=
                  CodeGeneratorFile.name file +:+ "."
                  +:+ CodeGeneratorFile.extension file;
                Download.mimeType := CodeGeneratorFile.mimeType file |}.
Proof.
  intros Hrun Hfile. unfold handleDownload. rewrite Hrun. simpl.
  eexists. split; [reflexivity |]. split.
  - simpl. rewrite length_map. reflexivity.
  - unfold exporter_getExtraFiles.
    change (List.map downloadExtraFile (getExtraFiles g) !! i
            = Some (downloadExtraFile file)).
    change (List.map downloadExtraFile (getExtraFiles g))
      with (downloadExtraFile <$> getExtraFiles g).
    rewrite list_lookup_fmap, Hfile. reflexivity.
Qed.

(** The preview names an extra file the same way. *)
Lemma previewExtraFile_name (file : CodeGeneratorFile.t) :
  PreviewDataExtraFile.name (previewExtraFile file)
  = CodeGeneratorFile.name file +:+ "." +:+ CodeGeneratorFile.extension file.
Proof. reflexivity. Qed.

End NativeExporterFacts.

(** ** The extra-file accumulator *)

Lemma perform_extraFiles (syntax : Syntax.t) (c : Base.Call)
  (g g' : CodeGeneratorBase.t) :
  Base.perform syntax c g = Return g' ->
  Base.getExtraFiles g' = Base.getExtraFiles g ++ Base.submitted [ c ].
Proof.
  destruct c; simpl; intros H.
  - injection H as <-. simpl. rewrite app_nil_r. reflexivity.
  - unfold Base.pushNamespace in H.
    destruct (CodeGeneratorBase.phase g); try discriminate H.
    injection H as <-. simpl. rewrite app_nil_r. reflexivity.
  - unfold Base.addNative in H.
    destruct (CodeGeneratorBase.phase g); try discriminate H.
    injection H as <-. simpl. rewrite app_nil_r. reflexivity.
  - unfold Base.popNamespace in H.
    destruct (CodeGeneratorBase.phase g); try discriminate H.
    destruct (CodeGeneratorBase.openNamespaces g); try discriminate H.
    injection H as <-. simpl. rewrite app_nil_r. reflexivity.
  - unfold Base.end_ in H.
    destruct (CodeGeneratorBase.phase g); try discriminate H.
    destruct (CodeGeneratorBase.openNamespaces g); try discriminate H.
    injection H as <-. simpl. rewrite app_nil_r. reflexivity.
  - injection H as <-. reflexivity.
Qed.

Lemma submitted_cons (c : Base.Call) (calls : list Base.Call) :
  Base.submitted (c :: calls) = Base.submitted [ c ] ++ Base.submitted calls.
Proof. destruct c; reflexivity. Qed.

Lemma performAll_extraFiles (syntax : Syntax.t) (calls : list Base.Call) :
  forall g g' : CodeGeneratorBase.t,
    Base.performAll syntax calls g = Return g' ->
    Base.getExtraFiles g' = Base.getExtraFiles g ++ Base.submitted calls.
Proof.
  induction calls as [| c rest IH]; intros g g' H.
  - injection H as <-. simpl. rewrite app_nil_r. reflexivity.
  - simpl in H. bind_inv H.
    rewrite (submitted_cons c rest), app_assoc.
    rewrite (IH _ _ H), (perform_extraFiles _ _ _ _ Hg0). reflexivity.
Qed.

(** C5: on an instance fresh from its constructor, after a run of calls
    that returns, [getExtraFiles()] is the list of the files submitted,
    in the order of the [submitExtraFile] calls, as many entries as there
    were such calls; and in every state, [clearExtraFiles()] followed by
    [getExtraFiles()] gives the empty list. *)
Theorem extraFiles_accumulate (syntax : Syntax.t) (settings : Js.PlainObject)
  (calls : list Base.Call) (g' g0 : CodeGeneratorBase.t) :
  Base.performAll syntax calls (Base.new settings) = Return g' ->
  Base.getExtraFiles g' = Base.submitted calls /\
  length (Base.getExtraFiles g') = length (Base.submitted calls) /\
  Base.getExtraFiles (Base.clearExtraFiles g0) = [].
Proof.
  intros Hrun. apply performAll_extraFiles in Hrun. simpl in Hrun.
  rewrite Hrun. repeat split; reflexivity.
Qed.

(** ** The properties at the sample data *)

(** The concrete scenario of the specification, with the C-style
    backend: the text, and the manifest as the one extra file. *)
Example scenario_export :
  exportRun (backend := CStyle.generator) CStyle.new Sample.settings
    Sample.catalog
  = Return (Sample.expectedText,
            [ CStyle.manifest [ "0xD49F9B0955C367DE" ] ]).
Proof. vm_compute. reflexivity. Qed.

Example scenario_broken :
  exportNatives (generator := CStyle.generator) Sample.brokenCatalog
    (CStyle.new Sample.settings)
  = Throw (DataIntegrityError "0x4EDE34FBADD967A6").
Proof. vm_compute. reflexivity. Qed.

Example scenario_preview :
  preview (backend := CStyle.generator) Native.namespace Native.hash
    CStyle.new Sample.settings Sample.GET_LABEL_TEXT
  = Return {| PreviewData.main := Sample.expectedText;
              PreviewData.extra_files :=
                [ {| PreviewDataExtraFile.name := "manifest.txt";
                     PreviewDataExtraFile.content := "0xD49F9B0955C367DE";
                     PreviewDataExtraFile.language := "plain" |} ] |}.
Proof. vm_compute. reflexivity. Qed.

Lemma exportNatives_missing_hash_witness :
  exists e,
    exportNatives (generator := CStyle.generator) Sample.brokenCatalog
      (CStyle.new Sample.settings) = Throw e.
Proof.
  apply (exportNatives_missing_hash (backend := CStyle.generator)
           Sample.brokenCatalog "SYSTEM"
           {| Namespace.name := "SYSTEM";
              Namespace.natives := [ "0x4EDE34FBADD967A6" ] |}
           "0x4EDE34FBADD967A6" (CStyle.new Sample.settings)).
  - simpl. right. left.
  - simpl. left.
  - vm_compute. reflexivity.
Defined.

Lemma handleDownload_extra_files_witness :
  exists downloads,
    handleDownload (backend := CStyle.generator) CStyle.new "h"
      Sample.settings Sample.natives Sample.namespaces = Return downloads /\
    length downloads = 2%nat /\
    downloads !! 1%nat
      = Some {| Download.data := "0xD49F9B0955C367DE";
                Download.filename := "manifest.txt";
                Download.mimeType := "text/plain" |}.
Proof.
  apply (handleDownload_extra_files (backend := CStyle.generator) CStyle.new
           "h" Sample.settings Sample.natives Sample.namespaces
           Sample.expectedText
           {| CStyle.base :=
                {| CodeGeneratorBase.settings := Sample.settings;
                   CodeGeneratorBase.phase := Ended;
                   CodeGeneratorBase.buffer := Sample.expectedText;
                   CodeGeneratorBase.openNamespaces := [];
                   CodeGeneratorBase.extraFiles :=
                     [ CStyle.manifest [ "0xD49F9B0955C367DE" ] ] |};
              CStyle.seen := [ "0xD49F9B0955C367DE" ] |}
           0%nat (CStyle.manifest [ "0xD49F9B0955C367DE" ])).
  - vm_compute. reflexivity.
  - reflexivity.
Defined.

Lemma extraFiles_accumulate_witness :
  exists g',
    (Base.performAll CStyle.syntax Sample.calls (Base.new Sample.settings)
     = Return g') /\
    (Base.getExtraFiles g'
     = [ CStyle.manifest [ "a" ]; CStyle.manifest [ "b" ] ]) /\
    (length (Base.getExtraFiles g') = 2%nat) /\
    (Base.getExtraFiles (Base.clearExtraFiles g') = []).
Proof.
  eexists. split; [vm_compute; reflexivity |].
  apply (extraFiles_accumulate CStyle.syntax Sample.settings Sample.calls).
  vm_compute. reflexivity.
Defined.

(** * Further properties of the page *)

(** ** Runs of change events *)

Lemma has_spread_set (o : Js.PlainObject) (key other : string) (v : Js.Value) :
  Js.has other (Js.spread_set o key v)
  = (String.eqb other key || Js.has other o)%bool.
Proof.
  unfold Js.has, Js.spread_set.
  destruct (String.eqb_spec other key) as [-> | Hne].
  - rewrite lookup_insert_eq. reflexivity.
  - rewrite lookup_insert_ne by congruence. reflexivity.
Qed.

Lemma get_spread_set (o : Js.PlainObject) (key : string) (v : Js.Value) :
  Js.get (Js.spread_set o key v) key = v.
Proof. unfold Js.get. rewrite spread_set_lookup. reflexivity. Qed.

(** What [Object.prototype] defines is never a boolean. *)
Lemma inherited_not_boolean (key : string) (v : Js.Value) :
  Js.inherited key = Some v -> Js.is_boolean (Js.typeof v) = false.
Proof.
  unfold Js.inherited.
  assert (Hall : Forall (fun kv => Js.is_boolean (Js.typeof (snd kv)) = false)
                   Js.ObjectPrototype)
    by (repeat constructor).
  induction Hall as [| [k w] rest Hw _ IH]; simpl.
  - discriminate.
  - destruct (String.eqb k key).
    + intros H. injection H as <-. exact Hw.
    + exact IH.
Qed.

(** A field that reads as a boolean is an own field. *)
Lemma boolean_is_own (o : Js.PlainObject) (key : string) :
  Js.is_boolean (Js.typeof (Js.get o key)) = true ->
  exists b, o !! key = Some (Js.Boolean b).
Proof.
  unfold Js.get. destruct (o !! key) as [v |] eqn:Hown.
  - destruct v; simpl; try discriminate. intros _. eauto.
  - destruct (Js.inherited key) as [v |] eqn:Hproto.
    + rewrite (inherited_not_boolean key v Hproto). discriminate.
    + simpl. discriminate.
Qed.

Lemma settingsAfter_cases (settings : Js.PlainObject) (target : EventTarget.t) :
  (Js.has (EventTarget.name target) settings = false /\
   settingsAfter settings target = settings) \/
  (Js.has (EventTarget.name target) settings = true /\
   exists v, settingsAfter settings target
             = Js.spread_set settings (EventTarget.name target) v).
Proof.
  unfold settingsAfter.
  destruct (Js.has (EventTarget.name target) settings) eqn:Hin.
  - right. split; [reflexivity |].
    destruct (handleChange_accepts settings target Hin) as [v ->]. eauto.
  - left. split; [reflexivity |].
    unfold handleChange. rewrite Hin. reflexivity.
Qed.

Lemma settingsAfter_has (settings : Js.PlainObject) (target : EventTarget.t)
  (key : string) :
  Js.has key (settingsAfter settings target) = Js.has key settings.
Proof.
  destruct (settingsAfter_cases settings target)
    as [[_ ->] | [Hin [v ->]]]; [reflexivity |].
  rewrite has_spread_set.
  destruct (String.eqb_spec key (EventTarget.name target)) as [-> | _].
  - rewrite Hin. reflexivity.
  - reflexivity.
Qed.

Lemma settingsAfter_lookup_ne (settings : Js.PlainObject)
  (target : EventTarget.t) (key : string) :
  key <> EventTarget.name target ->
  settingsAfter settings target !! key = settings !! key.
Proof.
  intros Hne.
  destruct (settingsAfter_cases settings target)
    as [[_ ->] | [_ [v ->]]]; [reflexivity |].
  apply spread_set_lookup_ne. exact Hne.
Qed.

(** X1: the handler neither forgets a field nor learns one: over any run
    of change events, the names that pass the test [name in settings] stay
    the same. *)
Theorem handleChanges_has (events : list EventTarget.t) :
  forall (settings : Js.PlainObject) (key : string),
    Js.has key (handleChanges settings events) = Js.has key settings.
Proof.
  induction events as [| target rest IH]; intros settings key; simpl.
  - reflexivity.
  - rewrite IH. apply settingsAfter_has.
Qed.

(** X2: a field that no event of a run names has, after the run, the
    value it had before. *)
Theorem handleChanges_frame (events : list EventTarget.t) (key : string) :
  Forall (fun target => EventTarget.name target <> key) events ->
  forall settings : Js.PlainObject,
    handleChanges settings events !! key = settings !! key.
Proof.
  induction 1 as [| target rest Hne _ IH]; intros settings; simpl.
  - reflexivity.
  - rewrite IH. apply settingsAfter_lookup_ne. congruence.
Qed.

Lemma settingsAfter_boolean (settings : Js.PlainObject)
  (target : EventTarget.t) (key : string) :
  is_Some (EventTarget.checked target) ->
  Js.is_boolean (Js.typeof (Js.get settings key)) = true ->
  Js.is_boolean (Js.typeof (Js.get (settingsAfter settings target) key)) = true.
Proof.
  intros [c Hchecked] Hbool.
  destruct (decide (key = EventTarget.name target)) as [-> | Hne].
  - destruct (boolean_is_own _ _ Hbool) as [b Hown].
    unfold settingsAfter, handleChange.
    assert (Hin : Js.has (EventTarget.name target) settings = true).
    { unfold Js.has. rewrite Hown. reflexivity. }
    rewrite Hin, Hbool, Hchecked. simpl.
    rewrite get_spread_set. reflexivity.
  - unfold Js.get. rewrite settingsAfter_lookup_ne by exact Hne.
    exact Hbool.
Qed.

(** X3: under events of input elements (every target carries a checked
    flag), a field that holds a boolean holds a boolean after any run. *)
Theorem handleChanges_boolean (events : list EventTarget.t) (key : string) :
  Forall (fun target => is_Some (EventTarget.checked target)) events ->
  forall settings : Js.PlainObject,
    Js.is_boolean (Js.typeof (Js.get settings key)) = true ->
    Js.is_boolean (Js.typeof (Js.get (handleChanges settings events) key))
    = true.
Proof.
  induction 1 as [| target rest Hchecked _ IH]; intros settings Hbool; simpl.
  - exact Hbool.
  - apply IH. apply settingsAfter_boolean; assumption.
Qed.

Lemma handleChange_spread_set_ne (settings : Js.PlainObject) (key : string)
  (v : Js.Value) (target : EventTarget.t) :
  EventTarget.name target <> key ->
  handleChange (Js.spread_set settings key v) target
  = (fun settings' => Js.spread_set settings' key v)
      <$> handleChange settings target.
Proof.
  intros Hne. unfold handleChange.
  rewrite has_spread_set, spread_set_get_ne by exact Hne.
  destruct (String.eqb_spec (EventTarget.name target) key) as [He | _];
    [contradiction |]. simpl.
  destruct (Js.has (EventTarget.name target) settings); [| reflexivity].
  simpl. unfold Js.spread_set.
  destruct (Js.is_boolean _), (EventTarget.checked target); simpl;
    f_equal; apply insert_insert_ne; congruence.
Qed.

Lemma settingsAfter_spread_set_ne (settings : Js.PlainObject) (key : string)
  (v : Js.Value) (target : EventTarget.t) :
  EventTarget.name target <> key ->
  settingsAfter (Js.spread_set settings key v) target
  = Js.spread_set (settingsAfter settings target) key v.
Proof.
  intros Hne. unfold settingsAfter.
  rewrite handleChange_spread_set_ne by exact Hne.
  destruct (handleChange settings target); reflexivity.
Qed.

(** X4: change events for two different fields commute: handled in
    either order, they leave the same settings. *)
Theorem settingsAfter_commute (settings : Js.PlainObject)
  (first second : EventTarget.t) :
  EventTarget.name first <> EventTarget.name second ->
  settingsAfter (settingsAfter settings first) second
  = settingsAfter (settingsAfter settings second) first.
Proof.
  intros Hne.
  destruct (settingsAfter_cases settings first)
    as [[Hout1 H1] | [_ [v1 H1]]].
  - rewrite H1.
    destruct (settingsAfter_cases (settingsAfter settings second) first)
      as [[_ ->] | [Hin _]]; [reflexivity |].
    rewrite settingsAfter_has in Hin. congruence.
  - rewrite H1.
    rewrite settingsAfter_spread_set_ne by congruence.
    destruct (settingsAfter_cases settings second)
      as [[_ H2] | [_ [v2 H2]]]; rewrite H2.
    + symmetry. exact H1.
    + rewrite settingsAfter_spread_set_ne by exact Hne.
      rewrite H1. unfold Js.spread_set.
      apply insert_insert_ne. congruence.
Qed.

Lemma settingsAfter_commute_witness :
  settingsAfter (settingsAfter Sample.settings Sample.checkboxEvent)
    {| EventTarget.name := "indentation";
       EventTarget.value := Js.String "tabs";
       EventTarget.checked := None |}
  = settingsAfter
      (settingsAfter Sample.settings
         {| EventTarget.name := "indentation";
            EventTarget.value := Js.String "tabs";
            EventTarget.checked := None |})
      Sample.checkboxEvent.
Proof.
  apply (settingsAfter_commute Sample.settings Sample.checkboxEvent
           {| EventTarget.name := "indentation";
              EventTarget.value := Js.String "tabs";
              EventTarget.checked := None |}).
  discriminate.
Defined.

Lemma settingsAfter_accepted (settings : Js.PlainObject)
  (target : EventTarget.t) :
  Js.has (EventTarget.name target) settings = true ->
  settingsAfter settings target
  = Js.spread_set settings (EventTarget.name target)
      (match EventTarget.checked target with
       | Some checked =>
           if Js.is_boolean
                (Js.typeof (Js.get settings (EventTarget.name target)))
           then Js.Boolean checked
           else EventTarget.value target
       | None => EventTarget.value target
       end).
Proof.
  intros Hin. unfold settingsAfter, handleChange. rewrite Hin. simpl.
  destruct (Js.is_boolean _), (EventTarget.checked target); reflexivity.
Qed.

(** X5: an event whose raw value is not a boolean (the value of an input
    element is a string) is idempotent: handled twice in a row, it leaves
    what it left the first time. *)
Theorem settingsAfter_idempotent (settings : Js.PlainObject)
  (target : EventTarget.t) :
  Js.is_boolean (Js.typeof (EventTarget.value target)) = false ->
  settingsAfter (settingsAfter settings target) target
  = settingsAfter settings target.
Proof.
  intros Hvalue.
  destruct (settingsAfter_cases settings target)
    as [[_ Hout] | [Hin _]].
  - rewrite !Hout. reflexivity.
  - rewrite (settingsAfter_accepted settings target Hin).
    rewrite settingsAfter_accepted
      by (rewrite has_spread_set, String.eqb_refl; reflexivity).
    rewrite get_spread_set. unfold Js.spread_set.
    rewrite insert_insert_eq. f_equal.
    destruct (EventTarget.checked target) as [c |]; [| reflexivity].
    destruct (Js.is_boolean (Js.typeof (Js.get settings _))); simpl.
    + reflexivity.
    + rewrite Hvalue. reflexivity.
Qed.

Lemma settingsAfter_idempotent_witness :
  settingsAfter (settingsAfter Sample.staleSettings Sample.checkboxEvent)
    Sample.checkboxEvent
  = settingsAfter Sample.staleSettings Sample.checkboxEvent.
Proof.
  apply (settingsAfter_idempotent Sample.staleSettings Sample.checkboxEvent).
  reflexivity.
Defined.

(** X6: an event named after a member of [Object.prototype] that the
    settings do not own passes the test [name in settings]; the handler
    then adds the name as a field of its own, holding the raw value of
    the target, whether or not the target carries a checked flag. *)
Theorem handleChange_inherited_name (settings : Js.PlainObject)
  (target : EventTarget.t) (member : Js.Value) :
  settings !! EventTarget.name target = None ->
  Js.inherited (EventTarget.name target) = Some member ->
  handleChange settings target
  = Some (<[ EventTarget.name target := EventTarget.value target ]> settings).
Proof.
  intros Hown Hproto. unfold handleChange, Js.has, Js.get.
  rewrite Hown, Hproto. simpl.
  rewrite (inherited_not_boolean _ _ Hproto). reflexivity.
Qed.

Lemma handleChange_inherited_name_witness :
  handleChange Sample.settings
    {| EventTarget.name := "toString";
       EventTarget.value := Js.String "on";
       EventTarget.checked := Some true |}
  = Some (<[ "toString" := Js.String "on" ]> Sample.settings).
Proof.
  apply (handleChange_inherited_name Sample.settings
           {| EventTarget.name := "toString";
              EventTarget.value := Js.String "on";
              EventTarget.checked := Some true |} Js.Function);
    reflexivity.
Defined.

Lemma handleChanges_frame_witness :
  handleChanges Sample.settings [ Sample.checkboxEvent; Sample.selectEvent ]
    !! "indentation" = Sample.settings !! "indentation".
Proof.
  apply (handleChanges_frame [ Sample.checkboxEvent; Sample.selectEvent ]
           "indentation").
  repeat constructor; discriminate.
Defined.

Lemma handleChanges_boolean_witness :
  Js.is_boolean
    (Js.typeof
       (Js.get (handleChanges Sample.settings
                  [ Sample.checkboxEvent; Sample.unknownEvent ])
          "generateComments")) = true.
Proof.
  apply (handleChanges_boolean [ Sample.checkboxEvent; Sample.unknownEvent ]
           "generateComments").
  - repeat constructor; eexists; reflexivity.
  - reflexivity.
Defined.

(** The condition of X5 is needed: with a boolean raw value and a
    different checked flag, the second handling writes the flag. *)
Example settingsAfter_not_idempotent :
  let target := {| EventTarget.name := "generateComments";
                   EventTarget.value := Js.Boolean false;
                   EventTarget.checked := Some true |} in
  settingsAfter Sample.staleSettings target !! "generateComments"
    = Some (Js.Boolean false) /\
  settingsAfter (settingsAfter Sample.staleSettings target) target
    !! "generateComments" = Some (Js.Boolean true).
Proof. split; reflexivity. Qed.

(** ** The language of a previewed extra file *)

Lemma indexOf_lower (needle s : string) : -1 <= Js.indexOf needle s.
Proof.
  induction s as [| a rest IH]; cbn [Js.indexOf].
  - destruct (String.prefix needle ""); lia.
  - destruct (String.prefix needle (String.String a rest)); [lia |].
    destruct (Js.indexOf needle rest <? 0) eqn:Hneg; [lia |].
    apply Z.ltb_ge in Hneg. lia.
Qed.

Lemma prefix_one_char (c a : Ascii.ascii) (rest : string) :
  String.prefix (String.String c "") (String.String a rest)
  = if Ascii.ascii_dec c a then true else false.
Proof.
  simpl. destruct (Ascii.ascii_dec c a); [| reflexivity].
  destruct rest; reflexivity.
Qed.

Lemma indexOf_after (c : Ascii.ascii) (before after : string) :
  Js.indexOf (String.String c "") before = -1 ->
  Js.indexOf (String.String c "")
    (before +:+ String.String c "" +:+ after)
  = Z.of_nat (String.length before).
Proof.
  induction before as [| a rest IH]; intros Hnone.
  - change (Js.indexOf (String.String c "") (String.String c after) = 0).
    cbn [Js.indexOf]. rewrite prefix_one_char.
    destruct (Ascii.ascii_dec c c); [reflexivity | contradiction].
  - cbn [Js.indexOf] in Hnone. rewrite prefix_one_char in Hnone.
    change ((String.String a rest) +:+ String.String c "" +:+ after)
      with (String.String a (rest +:+ String.String c "" +:+ after)).
    cbn [Js.indexOf]. rewrite prefix_one_char.
    destruct (Ascii.ascii_dec c a); [discriminate Hnone |].
    pose proof (indexOf_lower (String.String c "") rest) as Hlow.
    destruct (Js.indexOf (String.String c "") rest <? 0) eqn:Hneg.
    + apply Z.ltb_lt in Hneg.
      rewrite IH by lia.
      destruct (Z.of_nat (String.length rest) <? 0) eqn:Hlen.
      * apply Z.ltb_lt in Hlen. lia.
      * cbn [String.length]. lia.
    + apply Z.ltb_ge in Hneg. lia.
Qed.

Lemma drop_chars_app (before after : string) :
  Js.drop_chars (String.length before) (before +:+ after) = after.
Proof.
  induction before as [| a rest IH]; simpl.
  - reflexivity.
  - exact IH.
Qed.

Lemma append_assoc (a b c : string) :
  (a +:+ b) +:+ c = a +:+ b +:+ c.
Proof.
  induction a as [| x a IH]; [reflexivity |].
  change (String.String x ((a +:+ b) +:+ c) = String.String x (a +:+ b +:+ c)).
  rewrite IH. reflexivity.
Qed.

Lemma length_append (a b : string) :
  String.length (a +:+ b) = (String.length a + String.length b)%nat.
Proof. induction a as [| c a IH]; simpl; [reflexivity | rewrite IH; reflexivity]. Qed.

Section PreviewFacts.
Context {Native G : Type} {backend : ICodeGenerator Native G}.
Variable namespace_of : Native -> string.
Variable hash_of : Native -> string.
Variable generator : Js.PlainObject -> G.

(** X7: for an extra file whose MIME type is a type, a slash and a
    subtype (no slash in the type), the preview takes the subtype as the
    language of the file, and shows the content under the name of the
    file, a dot and its extension. *)
Theorem previewExtraFile_subtype (file : CodeGeneratorFile.t)
  (type subtype : string) :
  CodeGeneratorFile.mimeType file = type +:+ "/" +:+ subtype ->
  Js.indexOf "/" type = -1 ->
  previewExtraFile file
  = {| PreviewDataExtraFile.name :=
         CodeGeneratorFile.name file +:+ "."
         +:+ CodeGeneratorFile.extension file;
       PreviewDataExtraFile.content := CodeGeneratorFile.content file;
       PreviewDataExtraFile.language := subtype |}.
Proof.
  intros Hmime Hnone. unfold previewExtraFile. f_equal.
  rewrite Hmime, (indexOf_after _ type subtype Hnone).
  unfold Js.slice.
  rewrite !length_append. cbn [String.length].
  destruct (Z.of_nat (String.length type) + 1 <? 0) eqn:Hneg;
    [apply Z.ltb_lt in Hneg; lia |].
  rewrite Z.min_l by lia.
  replace (Z.to_nat (Z.of_nat (String.length type) + 1))
    with (String.length (type +:+ "/")) by (rewrite length_append; simpl; lia).
  rewrite <- append_assoc. apply drop_chars_app.
Qed.

(** X8: for an extra file whose MIME type has no slash, [indexOf] answers
    [-1] and [slice(0)] keeps everything: the language is the whole MIME
    type. *)
Theorem previewExtraFile_no_slash (file : CodeGeneratorFile.t) :
  Js.indexOf "/" (CodeGeneratorFile.mimeType file) = -1 ->
  PreviewDataExtraFile.language (previewExtraFile file)
  = CodeGeneratorFile.mimeType file.
Proof.
  intros Hnone. unfold previewExtraFile. simpl. rewrite Hnone.
  unfold Js.slice. simpl.
  destruct (Z.of_nat (String.length (CodeGeneratorFile.mimeType file)))
    eqn:Hlen; reflexivity.
Qed.

(** X9: the catalog that [preview] builds is closed: each hash a
    namespace of it lists is a key of its natives, and leads to the
    native shown. *)
Theorem previewCatalog_closed (nativeData : Native) (key : string)
  (namespace : Namespace.t) (hash : string) :
  (key, namespace)
    ∈ NativeData.namespaces (previewCatalog namespace_of hash_of nativeData) ->
  hash ∈ Namespace.natives namespace ->
  NativeData.natives (previewCatalog namespace_of hash_of nativeData) !! hash
  = Some nativeData.
Proof.
  simpl. intros Hns Hhash.
  apply list_elem_of_singleton in Hns. injection Hns as -> ->.
  simpl in Hhash. apply list_elem_of_singleton in Hhash. subst hash.
  apply lookup_singleton_eq.
Qed.

End PreviewFacts.

Lemma previewExtraFile_subtype_witness :
  previewExtraFile (CStyle.manifest [ "0xD49F9B0955C367DE" ])
  = {| PreviewDataExtraFile.name := "manifest.txt";
       PreviewDataExtraFile.content := "0xD49F9B0955C367DE";
       PreviewDataExtraFile.language := "plain" |}.
Proof.
  apply (previewExtraFile_subtype (CStyle.manifest [ "0xD49F9B0955C367DE" ])
           "text" "plain"); reflexivity.
Defined.

Lemma previewExtraFile_no_slash_witness :
  PreviewDataExtraFile.language
    (previewExtraFile
       {| CodeGeneratorFile.name := "natives";
          CodeGeneratorFile.extension := "json";
          CodeGeneratorFile.content := "{}";
          CodeGeneratorFile.mimeType := "json" |})
  = "json".
Proof.
  apply (previewExtraFile_no_slash
           {| CodeGeneratorFile.name := "natives";
              CodeGeneratorFile.extension := "json";
              CodeGeneratorFile.content := "{}";
              CodeGeneratorFile.mimeType := "json" |}).
  reflexivity.
Defined.

Lemma previewCatalog_closed_witness :
  NativeData.natives
    (previewCatalog Native.namespace Native.hash Sample.GET_LABEL_TEXT)
    !! "0xD49F9B0955C367DE" = Some Sample.GET_LABEL_TEXT.
Proof.
  apply (previewCatalog_closed Native.namespace Native.hash
           Sample.GET_LABEL_TEXT "NATIVE"
           {| Namespace.name := "NATIVE";
              Namespace.natives := [ "0xD49F9B0955C367DE" ] |}
           "0xD49F9B0955C367DE").
  - simpl. left.
  - simpl. left.
Defined.

(** ** The rendered page *)

Lemma renderOptions_lookup (settings : Js.PlainObject)
  (options : list CodeGenOptions) (i : nat) :
  renderOptions settings options !! i
  = (fun o => CodeGenOptionComponent o (Js.get settings (prop o)))
      <$> options !! i.
Proof. unfold renderOptions. apply list_lookup_fmap. Qed.

Lemma controlName_prop (option : CodeGenOptions) (value : Js.Value) :
  controlName (CodeGenOptionComponent option value) = prop option.
Proof. destruct option; reflexivity. Qed.

Lemma controlValue_shown (option : CodeGenOptions) (value : Js.Value) :
  controlValue (CodeGenOptionComponent option value) = value.
Proof. destruct option; reflexivity. Qed.

(** X10: after a change event that the handler accepts, the control of
    an option that names the changed field carries that name and shows
    what the handler wrote for it: the checked flag for a boolean field
    under a target with a flag, the raw value otherwise. *)
Theorem renderOptions_after_change (settings : Js.PlainObject)
  (options : list CodeGenOptions) (target : EventTarget.t) (i : nat)
  (option : CodeGenOptions) :
  Js.has (EventTarget.name target) settings = true ->
  options !! i = Some option ->
  prop option = EventTarget.name target ->
  exists control,
    renderOptions (settingsAfter settings target) options !! i = Some control /\
    controlName control = EventTarget.name target /\
    controlValue control
    = match Js.typeof (Js.get settings (EventTarget.name target)),
            EventTarget.checked target with
      | Js.t_boolean, Some checked => Js.Boolean checked
      | _, _ => EventTarget.value target
      end.
Proof.
  intros Hin Hoption Hprop.
  rewrite renderOptions_lookup, Hoption. simpl.
  eexists. split; [reflexivity |]. split.
  - rewrite controlName_prop. exact Hprop.
  - rewrite controlValue_shown, Hprop.
    rewrite (settingsAfter_accepted settings target Hin), get_spread_set.
    destruct (Js.typeof _), (EventTarget.checked target); reflexivity.
Qed.

Lemma renderOptions_after_change_witness :
  exists control,
    renderOptions (settingsAfter Sample.settings Sample.checkboxEvent)
      Sample.options !! 0%nat = Some control /\
    controlName control = "generateComments" /\
    controlValue control = Js.Boolean true.
Proof.
  apply (renderOptions_after_change Sample.settings Sample.options
           Sample.checkboxEvent 0
           (BooleanCodeGenOption "Include comments" "generateComments"));
    reflexivity.
Defined.

(** X11: a change event leaves the control of every option that names
    another field as it was. *)
Theorem renderOptions_other_options (settings : Js.PlainObject)
  (options : list CodeGenOptions) (target : EventTarget.t) (i : nat)
  (option : CodeGenOptions) :
  options !! i = Some option ->
  prop option <> EventTarget.name target ->
  renderOptions (settingsAfter settings target) options !! i
  = renderOptions settings options !! i.
Proof.
  intros Hoption Hne.
  rewrite !renderOptions_lookup, Hoption. simpl. f_equal. f_equal.
  unfold Js.get. rewrite settingsAfter_lookup_ne by exact Hne.
  reflexivity.
Qed.

Lemma renderOptions_other_options_witness :
  renderOptions
    (settingsAfter Sample.settings
       {| EventTarget.name := "indentation";
          EventTarget.value := Js.String "tabs";
          EventTarget.checked := None |})
    Sample.options !! 0%nat
  = renderOptions Sample.settings Sample.options !! 0%nat.
Proof.
  apply (renderOptions_other_options Sample.settings Sample.options
           {| EventTarget.name := "indentation";
              EventTarget.value := Js.String "tabs";
              EventTarget.checked := None |} 0
           (BooleanCodeGenOption "Include comments" "generateComments")).
  - reflexivity.
  - discriminate.
Defined.

Section LanguagePageFacts.
Context {Native G : Type} {backend : ICodeGenerator Native G}.
Variable namespace_of : Native -> string.
Variable hash_of : Native -> string.
Variable generator : Js.PlainObject -> G.
Variable name : string.
Variable options : list CodeGenOptions.
Variable advancedOptions : list CodeGenOptions.

(** X12: the render of the page never takes the branch that falls back
    to another preview native: when [useNative] has no native to give,
    the [preview] memo, evaluated before the test, throws on reading
    [nativeData.namespace]. *)
Theorem Language_never_falls_back (settings : Js.PlainObject)
  (previewNative : string) :
  Language namespace_of hash_of generator name options advancedOptions
    settings previewNative None
  = RenderThrows (TypeError "namespace") /\
  forall (nativeData : option Native) (fallback : string),
    Language namespace_of hash_of generator name options advancedOptions
      settings previewNative nativeData
    <> RenderNull fallback.
Proof.
  split; [reflexivity |].
  intros [native |] fallback; unfold Language, previewMemo.
  - destruct (preview _ _ _ _ _); discriminate.
  - discriminate.
Qed.


End LanguagePageFacts.


(** ** Clicks on the entries of the mobile menu *)

(** X14: a click pushes a link onto the history of the router exactly
    when the action has a non-empty [href] without [://] in it and no
    target: an external or a targeted link never goes through the
    router. *)
Theorem handleClick_history_push (action : AppBarAction.t) (href : string) :
  HistoryPush href ∈ handleClick action <->
  AppBarAction.href action = Some href /\
  href <> "" /\
  includes href "://" = false /\
  truthy (AppBarAction.target action) = false.
Proof.
  unfold handleClick. rewrite elem_of_app.
  destruct (AppBarAction.href action) as [h |] eqn:Hhref.
  - unfold truthy at 1.
    destruct (String.eqb_spec h "") as [-> | Hne]; simpl.
    + split.
      * intros [H | H]; [apply elem_of_nil in H; contradiction |].
        destruct (AppBarAction.onClick action);
          [apply list_elem_of_singleton in H; discriminate H
          | apply elem_of_nil in H; contradiction].
      * intros (Heq & Hne & _). injection Heq as <-. contradiction.
    + destruct (includes h "://") eqn:Hinc; simpl.
      * split.
        -- intros [H | H];
             [apply list_elem_of_singleton in H; discriminate H |].
           destruct (AppBarAction.onClick action);
             [apply list_elem_of_singleton in H; discriminate H
             | apply elem_of_nil in H; contradiction].
        -- intros (Heq & _ & Hno & _). injection Heq as <-. congruence.
      * destruct (truthy (AppBarAction.target action)) eqn:Htarget; simpl.
        -- split.
           ++ intros [H | H];
                [apply list_elem_of_singleton in H; discriminate H |].
              destruct (AppBarAction.onClick action);
                [apply list_elem_of_singleton in H; discriminate H
                | apply elem_of_nil in H; contradiction].
           ++ intros (_ & _ & _ & Hno). discriminate Hno.
        -- split.
           ++ intros [H | H].
              ** apply list_elem_of_singleton in H. injection H as ->.
                 repeat split; assumption.
              ** destruct (AppBarAction.onClick action);
                   [apply list_elem_of_singleton in H; discriminate H
                   | apply elem_of_nil in H; contradiction].
           ++ intros (Heq & _). injection Heq as <-.
              left. apply list_elem_of_singleton. reflexivity.
  - split.
    + intros [H | H]; [apply elem_of_nil in H; contradiction |].
      destruct (AppBarAction.onClick action);
        [apply list_elem_of_singleton in H; discriminate H
        | apply elem_of_nil in H; contradiction].
    + intros (Heq & _). discriminate Heq.
Qed.


(** Whatever actions the settings of the bar add in front, the four
    entries of the bar itself come last and do, in order: open the
    settings, open the statistics, route to the code-generation page
    inside the application, open the repository in a new window. *)
Lemma actions_of_the_bar (settings : AppBarSettings.t) :
  exists own,
    actions settings = default [] (AppBarSettings.actions settings) ++ own /\
    handleClick <$> own
    = [ [ Invoke handleSettingsOpen ];
        [ Invoke handleStatsDialogOpen ];
        [ HistoryPush "/generate-code" ];
        [ WindowOpen "https://github.com/DottieDot/GTAV-NativeDB"
            (Some "_blank") ] ].
Proof.
  unfold actions. eexists. split; [reflexivity |].
  vm_compute. reflexivity.
Qed.

(** ** The page of one native *)

Lemma elem_of_when {A : Type} (condition : bool) (block x : A) :
  x ∈ when condition block <-> condition = true /\ x = block.
Proof.
  unfold when. destruct condition.
  - rewrite list_elem_of_singleton. intuition congruence.
  - rewrite elem_of_nil. intuition congruence.
Qed.

Lemma blocks_old_names (native : ShownNative.t) (nativeHash : string)
  (usageNotFound : bool) (sources : list NativeSources) (game : Game)
  (heading : string) (names : list string) :
  OldNames heading names
    ∈ blocks native nativeHash usageNotFound sources game <->
  ShownNative.oldNames native = Some names /\
  heading = if Nat.eqb (length names) 1 then "Old name" else "Old names".
Proof.
  assert (Hheading : forall l : list string,
    "Old name" +:+ (if negb (Nat.eqb (length l) 1) then "s" else "")
    = if Nat.eqb (length l) 1 then "Old name" else "Old names").
  { intros l. destruct (Nat.eqb (length l) 1); reflexivity. }
  unfold blocks. rewrite !elem_of_app, !elem_of_when.
  rewrite !list_elem_of_singleton.
  assert (Hsch :
    ~ OldNames heading names
        ∈ match ShownNative.schComment native with
          | Some text => when (truthy (Some text)) (RockstarDescription text)
          | None => []
          end).
  { destruct (ShownNative.schComment native);
      rewrite ?elem_of_when, ?elem_of_nil; [intros [_ H]; discriminate H | tauto]. }
  assert (Hcomment :
    ~ OldNames heading names
        ∈ match ShownNative.comment native with
          | Some text => when (truthy (Some text)) (Description text)
          | None => []
          end).
  { destruct (ShownNative.comment native);
      rewrite ?elem_of_when, ?elem_of_nil; [intros [_ H]; discriminate H | tauto]. }
  assert (Hexamples :
    ~ OldNames heading names
        ∈ match ShownNative.examples native with
          | Some examples =>
              when (negb (Nat.eqb (length examples) 0)) (Examples examples)
          | None => []
          end).
  { destruct (ShownNative.examples native);
      rewrite ?elem_of_when, ?elem_of_nil; [intros [_ H]; discriminate H | tauto]. }
  destruct (ShownNative.oldNames native) as [old |].
  - rewrite list_elem_of_singleton, Hheading. split.
    + intros [H | [H | [H | [H | [H | [H | [H | H]]]]]]];
        try discriminate H; try contradiction;
        try (match type of H with
             | _ /\ _ => destruct H as [_ H]; discriminate H
             end).
      injection H as -> ->. split; reflexivity.
    + intros [Heq ->]. injection Heq as ->.
      do 4 right. left. reflexivity.
  - rewrite elem_of_nil. split.
    + intros [H | [H | [H | [H | [H | [H | [H | H]]]]]]];
        try discriminate H; try contradiction;
        try (match type of H with
             | _ /\ _ => destruct H as [_ H]; discriminate H
             end).
    + intros [Heq _]. discriminate Heq.
Qed.

Section NativeInfoFacts.
Variable useNative : string -> option ShownNative.t.
Variable toPascalCase : string -> string.

(** X16: when the page shows a native, it has a block of old names
    exactly when the native has a list of them, the empty list too; the
    block is headed "Old name" for a list of one and "Old names" for any
    other, and holds the list as it is. *)
Theorem NativeInfo_old_names (nativeHashParam nativeHashNotNull : option string)
  (isSmall : bool) (nativeDisplayMode : string)
  (sources : list NativeSources) (game : Game) (usageNotFound : bool)
  (heading : string) (shown : list Block) :
  NativeInfo useNative toPascalCase nativeHashParam nativeHashNotNull isSmall
    nativeDisplayMode sources game usageNotFound
  = Info heading shown ->
  exists native,
    useNative
      (default "" (if isSmall then nativeHashNotNull else nativeHashParam))
    = Some native /\
    forall (title : string) (names : list string),
      OldNames title names ∈ shown <->
      ShownNative.oldNames native = Some names /\
      title = if Nat.eqb (length names) 1 then "Old name" else "Old names".
Proof.
  unfold NativeInfo.
  destruct (negb (truthy _)); [discriminate |].
  destruct (useNative _) as [native |]; [| discriminate].
  intros H. injection H as _ <-.
  exists native. split; [reflexivity |].
  intros title names. apply blocks_old_names.
Qed.

(** X17: the page shows that no native is selected exactly when the hash
    in use (the last non-null one on a small display, the property
    otherwise) is undefined or empty, whatever the catalog holds under
    the empty hash. *)
Theorem NativeInfo_no_selection (nativeHashParam nativeHashNotNull : option string)
  (isSmall : bool) (nativeDisplayMode : string)
  (sources : list NativeSources) (game : Game) (usageNotFound : bool) :
  NativeInfo useNative toPascalCase nativeHashParam nativeHashNotNull isSmall
    nativeDisplayMode sources game usageNotFound
  = NoNativeSelected <->
  truthy (if isSmall then nativeHashNotNull else nativeHashParam) = false.
Proof.
  unfold NativeInfo.
  destruct (truthy (if isSmall then nativeHashNotNull else nativeHashParam));
    simpl.
  - destruct (useNative _); split; discriminate.
  - split; reflexivity.
Qed.

End NativeInfoFacts.

Lemma NativeInfo_old_names_witness :
  exists native,
    SampleInfo.useNative "0x4EDE34FBADD967A6" = Some native /\
    forall (title : string) (names : list string),
      OldNames title names
        ∈ [ DefinitionBlock; OldNames "Old names" [];
            Comments "0x4EDE34FBADD967A6" ] <->
      ShownNative.oldNames native = Some names /\
      title = if Nat.eqb (length names) 1 then "Old name" else "Old names".
Proof.
  apply (NativeInfo_old_names SampleInfo.useNative (fun name => name)
           (Some "0x4EDE34FBADD967A6") None false "C" [] GrandTheftAuto5
           false "WAIT").
  reflexivity.
Defined.
